(** * passport-http-custom-bearer: the bearer strategy of [lib/strategy.js]

    A shallow embedding of the [Strategy] constructor, of
    [Strategy.prototype.authenticate] and of [Strategy.prototype._challenge],
    followed by the properties of the configuration resolver, the credential
    locator and the outcome mediator.

    Conventions of the embedding:
    - a JavaScript string is a [string]: a sequence of code units in the
      range 0..255 (the range Node's HTTP parser delivers header values in);
    - a JavaScript object used as a lookup table ([req.headers], [req.body],
      [req.query], [info]) is a [gmap string _]; a key that is missing reads
      as [undefined];
    - the calls [this.fail], [this.error], [this.success] and [this._verify]
      are recorded, in order, in a trace of [Action]s. *)

From Stdlib Require Import String Ascii NArith List Bool.
From stdpp Require Import base option gmap strings list fin_maps.

Local Open Scope string_scope.

(** ** JavaScript values *)

Module JS.

(** The values a request body, a query string or the verify callback can
    hand to the strategy: the primitives the code tells apart, and plain
    data objects.  Numbers are left out: the strategy never computes with
    one, and under ToBoolean a number behaves as a boolean does. *)
#[warnings="-register-all"]
Inductive Val : Type :=
| VUndefined
| VNull
| VBool (b : bool)
| VStr (s : string)
| VObj (props : gmap string Val).

(** ToBoolean. *)
Definition truthy (v : Val) : bool :=
  match v with
  | VUndefined | VNull => false
  | VBool b => b
  | VStr s => negb (String.eqb s EmptyString)
  | VObj _ => true
  end.

(** [a || b]. *)
Definition or_else (a b : Val) : Val := if truthy a then a else b.

(** [typeof v == 'string']. *)
Definition is_string (v : Val) : bool :=
  match v with VStr _ => true | _ => false end.

(** [v[k]] for a key [k] that no prototype defines as a data property (the
    code reads [message]): the own property of an object, [undefined] on a
    primitive. *)
Definition get (v : Val) (k : string) : Val :=
  match v with
  | VObj props => default VUndefined (props !! k)
  | _ => VUndefined
  end.

(** ToBoolean of [v.length]: the length of a string is its number of code
    units, which is falsy exactly for the empty string; an object answers
    with its own [length] property; the other primitives have none. *)
Definition length_truthy (v : Val) : bool :=
  match v with
  | VStr s => negb (String.eqb s EmptyString)
  | VObj props => truthy (default VUndefined (props !! "length"))
  | _ => false
  end.

(** ToString, as applied by [+] with a string operand.  A plain object
    prints through [Object.prototype.toString]; an object that carries its
    own [toString] or [valueOf] is outside the embedding, and the
    properties below that depend on this conversion are stated for
    primitives. *)
Definition to_string (v : Val) : string :=
  match v with
  | VUndefined => "undefined"
  | VNull => "null"
  | VBool true => "true"
  | VBool false => "false"
  | VStr s => s
  | VObj _ => "[object Object]"
  end.

(** [v[k] = x] in sloppy mode: sets the property of an object, and is
    silently dropped on a primitive. *)
Definition set (v : Val) (k : string) (x : Val) : Val :=
  match v with
  | VObj props => VObj (<[k := x]> props)
  | _ => v
  end.

End JS.

(** ** Strings *)

Module Str.

Definition in_range (lo hi : N) (c : ascii) : bool :=
  ((lo <=? N_of_ascii c) && (N_of_ascii c <=? hi))%N.

(** Lower case of one code unit in 0..255: [A-Z], and the Latin-1 capitals
    U+00C0..U+00DE except the multiplication sign U+00D7, move up by 32. *)
Definition lower_char (c : ascii) : ascii :=
  if in_range 65 90 c
     || (in_range 192 222 c && negb (N_of_ascii c =? 215)%N)
  then ascii_of_N (N_of_ascii c + 32)
  else c.

(** [String.prototype.toLowerCase]. *)
Fixpoint toLowerCase (s : string) : string :=
  match s with
  | EmptyString => EmptyString
  | String c r => String (lower_char c) (toLowerCase r)
  end.

(** Case folding of a regular expression with the [i] flag and without the
    [u] flag, as far as it decides a match against an ASCII letter of the
    pattern: [a-z] fold to [A-Z], and no code unit above 127 folds to an
    ASCII one. *)
Definition canonicalize (c : ascii) : ascii :=
  if in_range 97 122 c then ascii_of_N (N_of_ascii c - 32) else c.

Definition char_eq_i (p c : ascii) : bool :=
  Ascii.eqb (canonicalize p) (canonicalize c).

(** The whole of [s] matches the literal [pat], case-insensitively:
    [/^pat$/i.test(s)]. *)
Fixpoint test_whole_i (pat s : string) : bool :=
  match pat, s with
  | EmptyString, EmptyString => true
  | String p pat', String c s' => char_eq_i p c && test_whole_i pat' s'
  | _, _ => false
  end.

(** [s.replace(/^X\-/i, '')]: drops a leading [X-] or [x-], once. *)
Definition replace_X_prefix (s : string) : string :=
  match s with
  | String c0 (String c1 r) =>
      if char_eq_i "X" c0 && Ascii.eqb c1 "-" then r else s
  | _ => s
  end.

(** [s.split(' ')]: the pieces between consecutive single spaces; never
    empty, and one empty piece for the empty string. *)
Fixpoint split (s : string) : list string :=
  match s with
  | EmptyString => [EmptyString]
  | String c r =>
      if Ascii.eqb c " " then EmptyString :: split r
      else match split r with
           | h :: t => String c h :: t
           | [] => [String c EmptyString]
           end
  end.

(** [a.join(' ')] on an array of strings. *)
Fixpoint join (a : list string) : string :=
  match a with
  | [] => EmptyString
  | [x] => x
  | x :: r => x ++ " " ++ join r
  end.

(** No code unit of [s] is a space. *)
Fixpoint no_space (s : string) : bool :=
  match s with
  | EmptyString => true
  | String c r => negb (Ascii.eqb c " ") && no_space r
  end.

End Str.

(** ** The request, the verify callback and the recorded calls *)

(** The part of the request the strategy reads.  Each of the three tables
    may be missing; header values are strings. *)
Record Request : Type := {
  headers : option (gmap string string);
  body : option (gmap string JS.Val);
  query : option (gmap string JS.Val)
}.

(** One call [done(err, user, info)] of the result handler. *)
Record DoneArgs : Type := { err : JS.Val; user : JS.Val; info : JS.Val }.

(** The verify callback: given the request (when [passReqToCallback] is
    set) and the token, the calls of the result handler it makes, in
    order.  It is meant to make exactly one. *)
Definition VerifyFn : Type := option Request -> JS.Val -> list DoneArgs.

(** The calls an authentication makes: [this.fail(status)],
    [this.fail(challenge)], [this.error(err)], [this.success(user, info)]
    and the call of the verify callback with the request (or without it)
    and the token. *)
Inductive Action : Type :=
| fail_status (status : N)
| fail_challenge (challenge : string)
| error (e : JS.Val)
| success (u i : JS.Val)
| verify_called (r : option Request) (token : JS.Val).

(** ** The constructor *)

Inductive ScopeOption : Type :=
| ScopeString (s : string)
| ScopeArray (a : list string).

Record Options : Type := {
  realm : option string;
  scope : option ScopeOption;
  headerName : option string;
  bodyName : option string;
  queryName : option string;
  passReqToCallback : bool
}.

(** The object [{}]. *)
Definition no_options : Options :=
  {| realm := None; scope := None; headerName := None; bodyName := None;
     queryName := None; passReqToCallback := false |}.

(** [options[which]] for the three field-name options. *)
Definition option_named (options : Options) (which : string) : option string :=
  if String.eqb which "headerName" then headerName options
  else if String.eqb which "bodyName" then bodyName options
  else if String.eqb which "queryName" then queryName options
  else None.

(** ToBoolean of an optional string. *)
Definition given (o : option string) : bool :=
  match o with
  | Some s => negb (String.eqb s EmptyString)
  | None => false
  end.

(** [o || d] on strings. *)
Definition or_default (o : option string) (d : string) : string :=
  match o with
  | Some s => if String.eqb s EmptyString then d else s
  | None => d
  end.

(** [getCustomHeaders(options, which)]; [None] is [undefined]. *)
Definition getCustomHeaders (options : Options) (which : string) : option string :=
  match option_named options which with
  | Some v =>
      if given (Some v) then
        let f := Str.toLowerCase (Str.replace_X_prefix v) in
        if String.eqb which "headerName" then Some ("x-" ++ f) else Some f
      else None
  | None => None
  end.

Record Strategy : Type := {
  name : string;
  _verify : VerifyFn;
  _realm : string;
  _scope : option (list string);
  _headerName : string;
  _bodyName : string;
  _queryName : string;
  _passReqToCallback : bool
}.

(** What the constructor can throw: the [TypeError] it builds itself, with
    its message, and the [TypeError] the engine raises when a property is
    read from [undefined] or [null], whose message is the engine's. *)
Inductive Exception : Type :=
| TypeError (message : string)
| TypeErrorReading (property : string).

(** The first argument of the constructor: the options, the verify
    callback itself when the options are left out, or nothing ([undefined],
    [null], or no argument at all). *)
Inductive FirstArg : Type :=
| ArgOptions (o : Options)
| ArgFunction (f : VerifyFn)
| ArgMissing.

(** [new Strategy(options, verify)]. *)
Definition new_Strategy (options : FirstArg) (verify : option VerifyFn)
  : Exception + Strategy :=
  let '(options, verify) :=
    match options with
    | ArgFunction f => (Some no_options, Some f)
    | ArgOptions o => (Some o, verify)
    | ArgMissing => (None, verify)
    end in
  match verify with
  | None => inl (TypeError "HTTPBearerStrategy requires a verify callback")
  | Some verify =>
      match options with
      | None => inl (TypeErrorReading "realm")
      | Some options =>
      inr {| name := "custom-bearer";
             _verify := verify;
             _realm := or_default (realm options) "Users";
             _scope :=
               match scope options with
               | Some (ScopeArray a) => Some a
               | Some (ScopeString s) =>
                   if String.eqb s EmptyString then None else Some [s]
               | None => None
               end;
             _headerName :=
               or_default (getCustomHeaders options "headerName") "authorization";
             _bodyName :=
               or_default (getCustomHeaders options "bodyName") "access_token";
             _queryName :=
               or_default (getCustomHeaders options "queryName") "access_token";
             _passReqToCallback := passReqToCallback options |}
      end
  end.

(** ** [_challenge] *)

(** The double quote character, as a string. *)
Definition dq : string := String (ascii_of_N 34) EmptyString.

Definition _challenge (self : Strategy) (code desc uri : JS.Val) : string :=
  let challenge := "Bearer realm=" ++ dq ++ _realm self ++ dq in
  let challenge :=
    match _scope self with
    | Some sc => challenge ++ ", scope=" ++ dq ++ Str.join sc ++ dq
    | None => challenge
    end in
  let challenge :=
    if JS.truthy code
    then challenge ++ ", error=" ++ dq ++ JS.to_string code ++ dq
    else challenge in
  let challenge :=
    if JS.truthy desc && JS.length_truthy desc
    then challenge ++ ", error_description=" ++ dq ++ JS.to_string desc ++ dq
    else challenge in
  let challenge :=
    if JS.truthy uri && JS.length_truthy uri
    then challenge ++ ", error_uri=" ++ dq ++ JS.to_string uri ++ dq
    else challenge in
  challenge.

(** ** [authenticate] *)

(** A statement of the function body either returns, with the calls made
    so far, or falls through to the next statement with a value. *)
Inductive Flow (A : Type) : Type :=
| Returned (trace : list Action)
| Next (a : A).
Arguments Returned {A} trace.
Arguments Next {A} a.

Definition then_ {A B : Type} (s : Flow A) (k : A -> Flow B) : Flow B :=
  match s with
  | Returned t => Returned t
  | Next a => k a
  end.

Notation "x <- s ;; k" := (then_ s (fun x => k))
  (at level 100, s at next level, k at level 200, right associativity).

(** Reaching the end of the body makes no further call. *)
Definition finish (s : Flow unit) : list Action :=
  match s with
  | Returned t => t
  | Next _ => []
  end.

(** [tbl && tbl[k]]: a missing table or a missing key reads as
    [undefined]. *)
Definition field (tbl : option (gmap string JS.Val)) (k : string) : JS.Val :=
  match tbl with
  | Some t => default JS.VUndefined (t !! k)
  | None => JS.VUndefined
  end.

(** The result handler [verified(err, user, info)] of one authentication. *)
Definition verified (self : Strategy) (d : DoneArgs) : Action :=
  let info := JS.or_else (info d) (JS.VObj ∅) in
  if JS.truthy (err d) then error (err d)
  else if negb (JS.truthy (user d)) then
    let info :=
      if JS.is_string info then JS.VObj {[ "message" := info ]} else info in
    fail_challenge
      (_challenge self (JS.VStr "invalid_token") (JS.get info "message")
         JS.VUndefined)
  else
    let info := JS.set info "headerName" (JS.VStr (_headerName self)) in
    let info := JS.set info "bodyName" (JS.VStr (_bodyName self)) in
    let info := JS.set info "queryName" (JS.VStr (_queryName self)) in
    success (user d) info.

Definition authenticate (self : Strategy) (req : Request) : list Action :=
  finish (
    token <- match headers req ≫= (.!! _headerName self) with
             | Some value =>
                 if given (Some value) then
                   match Str.split value with
                   | [scheme; credentials] =>
                       if Str.test_whole_i "Bearer" scheme
                       then Next (JS.VStr credentials)
                       else Next JS.VUndefined
                   | _ => Returned [fail_status 400]
                   end
                 else Next JS.VUndefined
             | None => Next JS.VUndefined
             end ;;
    token <- (if JS.truthy (field (body req) (_bodyName self)) then
                if JS.truthy token then Returned [fail_status 400]
                else Next (field (body req) (_bodyName self))
              else Next token) ;;
    token <- (if JS.truthy (field (query req) (_queryName self)) then
                if JS.truthy token then Returned [fail_status 400]
                else Next (field (query req) (_queryName self))
              else Next token) ;;
    if negb (JS.truthy token) then
      Returned [fail_challenge
                  (_challenge self JS.VUndefined JS.VUndefined JS.VUndefined)]
    else
      let arg := if _passReqToCallback self then Some req else None in
      Returned (verify_called arg token
                  :: map (verified self) (_verify self arg token))).

(** ** Vocabulary of the properties *)

(** An optional string argument of [_challenge]: left out, or a string. *)
Definition of_option (o : option string) : JS.Val :=
  match o with
  | Some s => JS.VStr s
  | None => JS.VUndefined
  end.

(** The configured header is present and reads as [scheme], one space,
    [credentials], where [scheme] is [Bearer] in any letter case. *)
Definition bearer_header (self : Strategy) (req : Request)
    (credentials : string) : Prop :=
  exists h value scheme,
    headers req = Some h /\ h !! _headerName self = Some value /\
    Str.split value = [scheme; credentials] /\
    Str.test_whole_i "Bearer" scheme = true.

(** A location supplies a credential: a [Bearer] header with a non-empty
    second part; a truthy value under the configured body or query field. *)
Definition header_supplies (self : Strategy) (req : Request) : Prop :=
  exists c, bearer_header self req c /\ c <> EmptyString.

Definition body_supplies (self : Strategy) (req : Request) : Prop :=
  JS.truthy (field (body req) (_bodyName self)) = true.

Definition query_supplies (self : Strategy) (req : Request) : Prop :=
  JS.truthy (field (query req) (_queryName self)) = true.

(** The configured header yields no candidate and no error: it is absent
    or empty, or has two parts of which the first is not [Bearer] or the
    second is empty. *)
Definition header_without_credential (self : Strategy) (req : Request) : Prop :=
  match headers req ≫= (.!! _headerName self) with
  | None => True
  | Some value =>
      value = EmptyString \/
      exists scheme credentials,
        Str.split value = [scheme; credentials] /\
        (Str.test_whole_i "Bearer" scheme = false \/ credentials = EmptyString)
  end.

(** The request argument the verify callback is called with. *)
Definition verify_arg (self : Strategy) (req : Request) : option Request :=
  if _passReqToCallback self then Some req else None.

(** The calls of an authentication that reaches the verify callback with
    [token]. *)
Definition verify_trace (self : Strategy) (req : Request) (token : JS.Val)
  : list Action :=
  verify_called (verify_arg self req) token
    :: map (verified self) (_verify self (verify_arg self req) token).

(** The challenge with no error code. *)
Definition bare_challenge (self : Strategy) : string :=
  _challenge self JS.VUndefined JS.VUndefined JS.VUndefined.

(** What the candidates left by the three locations, in order, lead to:
    none, the bare challenge; one, the verify callback; more, status 400. *)
Definition outcome_of_candidates (self : Strategy) (req : Request)
    (found : list JS.Val) : list Action :=
  match found with
  | [] => [fail_challenge (bare_challenge self)]
  | [token] => verify_trace self req token
  | _ => [fail_status 400]
  end.

(** A value that is missing or the empty string. *)
Definition empty_value (v : JS.Val) : Prop :=
  v = JS.VUndefined \/ v = JS.VStr EmptyString.

(** The challenge format of RFC 6750 section 3, written from the wording
    of the specification and not from the code.  A field is a comma, a
    space, its label and its quoted value; the scope values are joined by
    single spaces. *)
Definition quoted_field (label value : string) : string :=
  ", " ++ label ++ "=" ++ dq ++ value ++ dq.

Definition optional_field (label : string) (value : option string) : string :=
  match value with
  | Some v => if String.eqb v EmptyString then EmptyString
              else quoted_field label v
  | None => EmptyString
  end.

Definition space_joined (values : list string) : string :=
  String.concat " " values.

(** As worded: the realm, then each of the four optional fields only when
    it is present and its value is not empty. *)
Definition challenge_format_as_worded (realm : string)
    (scope : option (list string)) (code desc uri : option string) : string :=
  "Bearer realm=" ++ dq ++ realm ++ dq
  ++ optional_field "scope" (option_map space_joined scope)
  ++ optional_field "error" code
  ++ optional_field "error_description" desc
  ++ optional_field "error_uri" uri.


(** As amended: the scope field is there whenever a scope is configured,
    also when its joined value is empty; the three other fields are there
    only when present and not empty. *)
Definition challenge_format (realm : string) (scope : option (list string))
    (code desc uri : option string) : string :=
  "Bearer realm=" ++ dq ++ realm ++ dq
  ++ match scope with
     | Some sc => quoted_field "scope" (space_joined sc)
     | None => EmptyString
     end
  ++ optional_field "error" code
  ++ optional_field "error_description" desc
  ++ optional_field "error_uri" uri.

(** Two statements of the specification, as worded there, that the code
    does not meet for every input; each is refuted below and proved in an
    amended form.  The first: any header value of a part count other than
    two is answered with status 400.  The second: a two-part [Bearer]
    header always hands its second part to the verify callback, and a
    two-part header of another scheme leaves the outcome to the body and
    the query. *)
Definition every_malformed_header_rejected : Prop :=
  forall (self : Strategy) (req : Request) (h : gmap string string)
         (value : string),
    headers req = Some h -> h !! _headerName self = Some value ->
    length (Str.split value) <> 2 ->
    authenticate self req = [fail_status 400].

Definition every_bearer_header_verified : Prop :=
  forall (self : Strategy) (req : Request) (h : gmap string string)
         (value scheme credentials : string),
    headers req = Some h -> h !! _headerName self = Some value ->
    Str.split value = [scheme; credentials] ->
    (Str.test_whole_i "Bearer" scheme = true ->
     JS.truthy (field (body req) (_bodyName self)) = false ->
     JS.truthy (field (query req) (_queryName self)) = false ->
     authenticate self req = verify_trace self req (JS.VStr credentials)) /\
    (Str.test_whole_i "Bearer" scheme = false ->
     authenticate self req =
     outcome_of_candidates self req
       (List.filter JS.truthy [field (body req) (_bodyName self);
                          field (query req) (_queryName self)])).

(** The field names as the specification words their resolution: the
    header name loses an [X-] prefix, is lower-cased and gains the prefix
    again, and defaults to the prefixed authorization key; a body or query
    name is lower-cased as given and defaults to [access_token]. *)
Definition header_key_as_specified (supplied : option string) : string :=
  match supplied with
  | Some n => "x-" ++ Str.toLowerCase (Str.replace_X_prefix n)
  | None => "x-authorization"
  end.

Definition field_key_as_specified (supplied : option string) : string :=
  match supplied with
  | Some n => Str.toLowerCase n
  | None => "access_token"
  end.

(** The options a constructor call works with. *)
Definition options_of (first : FirstArg) : Options :=
  match first with
  | ArgOptions o => o
  | ArgFunction _ => no_options
  | ArgMissing => no_options
  end.

Definition header_name_as_specified : Prop :=
  forall (first : FirstArg) (verify : option VerifyFn) (self : Strategy),
    new_Strategy first verify = inr self ->
    _headerName self = header_key_as_specified (headerName (options_of first)).

Definition field_names_as_specified : Prop :=
  forall (first : FirstArg) (verify : option VerifyFn) (self : Strategy),
    new_Strategy first verify = inr self ->
    _bodyName self = field_key_as_specified (bodyName (options_of first)) /\
    _queryName self = field_key_as_specified (queryName (options_of first)).

(** The three keys the result handler writes into [info]. *)
Definition name_keys : list string := ["headerName"; "bodyName"; "queryName"].

(** The success [info] as the specification words it: the three names are
    there and every entry of the caller is still there. *)
Definition every_caller_entry_retained : Prop :=
  forall (self : Strategy) (d : DoneArgs) (m : gmap string JS.Val),
    JS.truthy (err d) = false -> JS.truthy (user d) = true ->
    info d = JS.VObj m ->
    exists m' : gmap string JS.Val,
      verified self d = success (user d) (JS.VObj m') /\
      m' !! "headerName" = Some (JS.VStr (_headerName self)) /\
      m' !! "bodyName" = Some (JS.VStr (_bodyName self)) /\
      m' !! "queryName" = Some (JS.VStr (_queryName self)) /\
      forall k v, m !! k = Some v -> m' !! k = Some v.

(** Sample collaborators. *)
Definition never_done : VerifyFn := fun _ _ => [].

Definition reject_with (message : string) : VerifyFn :=
  fun _ _ => [ {| err := JS.VNull; user := JS.VBool false;
                  info := JS.VStr message |} ].

Definition sample_user : JS.Val := JS.VObj {[ "id" := JS.VStr "u1" ]}.

Definition accept_with (i : JS.Val) : VerifyFn :=
  fun _ _ => [ {| err := JS.VNull; user := sample_user; info := i |} ].

(** The strategy of [new Strategy(verify)]. *)
Definition default_strategy (verify : VerifyFn) : Strategy :=
  {| name := "custom-bearer"; _verify := verify; _realm := "Users";
     _scope := None; _headerName := "authorization";
     _bodyName := "access_token"; _queryName := "access_token";
     _passReqToCallback := false |}.

Definition names_only (h b q : option string) : Options :=
  {| realm := None; scope := None; headerName := h; bodyName := b;
     queryName := q; passReqToCallback := false |}.

Definition request_of (h : list (string * string))
    (b q : list (string * JS.Val)) : Request :=
  {| headers := Some (list_to_map h); body := Some (list_to_map b);
     query := Some (list_to_map q) |}.

(** ** Vocabulary of the further properties *)

(** The configured header is present, not empty, and does not split into
    exactly two parts. *)
Definition header_malformed (self : Strategy) (req : Request) : Prop :=
  exists h value,
    headers req = Some h /\ h !! _headerName self = Some value /\
    value <> EmptyString /\ length (Str.split value) <> 2.


(** Two optional names that differ at most in letter case. *)
Definition same_up_to_case (a b : option string) : Prop :=
  option_map Str.toLowerCase a = option_map Str.toLowerCase b.

(** The options [o] with another [scope] or another [headerName]. *)
Definition with_scope (o : Options) (sc : option ScopeOption) : Options :=
  {| realm := realm o; scope := sc; headerName := headerName o;
     bodyName := bodyName o; queryName := queryName o;
     passReqToCallback := passReqToCallback o |}.

Definition with_headerName (o : Options) (n : option string) : Options :=
  {| realm := realm o; scope := scope o; headerName := n;
     bodyName := bodyName o; queryName := queryName o;
     passReqToCallback := passReqToCallback o |}.



Definition is_object (v : JS.Val) : bool :=
  match v with JS.VObj _ => true | _ => false end.

Definition requires_verify : Exception :=
  TypeError "HTTPBearerStrategy requires a verify callback".

(** * Properties *)

(** ** Strings and values *)

Lemma eqb_empty_false (s : string) :
  String.eqb s EmptyString = false <-> s <> EmptyString.
Proof. apply String.eqb_neq. Qed.

Lemma truthy_string (s : string) :
  JS.truthy (JS.VStr s) = true <-> s <> EmptyString.
Proof.
  simpl. rewrite negb_true_iff. apply eqb_empty_false.
Qed.

Lemma given_some (s : string) : given (Some s) = true <-> s <> EmptyString.
Proof.
  simpl. rewrite negb_true_iff. apply eqb_empty_false.
Qed.

Lemma split_not_nil (s : string) : Str.split s <> [].
Proof.
  induction s as [|c r IH]; simpl; [discriminate|].
  destruct (Ascii.eqb c " "); [discriminate|].
  destruct (Str.split r); [contradiction | discriminate].
Qed.

(** Joining the pieces with a space gives the string back, and no piece
    holds a space. *)
Lemma join_split (s : string) : Str.join (Str.split s) = s.
Proof.
  induction s as [|c r IH]; [reflexivity|]. simpl.
  destruct (Ascii.eqb_spec c " ") as [->|_].
  - pose proof (split_not_nil r) as Hn.
    destruct (Str.split r) as [|h t]; [contradiction|].
    change (Str.join (EmptyString :: h :: t)) with (" " ++ Str.join (h :: t)).
    now rewrite IH.
  - pose proof (split_not_nil r) as Hn.
    destruct (Str.split r) as [|h t]; [contradiction|].
    rewrite <- IH. destruct t; reflexivity.
Qed.

Lemma split_pieces_no_space (s : string) :
  Forall (fun p => Str.no_space p = true) (Str.split s).
Proof.
  induction s as [|c r IH]; simpl.
  - repeat constructor.
  - destruct (Ascii.eqb c " ") eqn:E.
    + constructor; [reflexivity | exact IH].
    + destruct (Str.split r) as [|h t]; [repeat constructor; simpl; now rewrite E|].
      inversion IH; subst. constructor; [|assumption].
      simpl. rewrite E. assumption.
Qed.

(** A value of the form scheme, one space, credentials, with no further
    space, splits into exactly those two parts. *)
Lemma split_no_space (a : string) :
  Str.no_space a = true -> Str.split a = [a].
Proof.
  induction a as [|c r IH]; simpl; [reflexivity|].
  destruct (Ascii.eqb c " "); simpl; [discriminate|].
  intros H. now rewrite IH.
Qed.

Lemma split_scheme_credentials (a b : string) :
  Str.no_space a = true -> Str.no_space b = true ->
  Str.split (a ++ " " ++ b) = [a; b].
Proof.
  intros Ha Hb. induction a as [|c r IH].
  - change (Str.split (EmptyString ++ " " ++ b))
      with (EmptyString :: Str.split b).
    now rewrite split_no_space.
  - simpl in Ha. apply andb_true_iff in Ha as [Hc Hr].
    change (Str.split (String c r ++ " " ++ b))
      with (if Ascii.eqb c " " then EmptyString :: Str.split (r ++ " " ++ b)
            else match Str.split (r ++ " " ++ b) with
                 | h :: t => String c h :: t
                 | [] => [String c EmptyString]
                 end).
    apply negb_true_iff in Hc. rewrite Hc, (IH Hr). reflexivity.
Qed.

Lemma split_two_nonempty (value a b : string) :
  Str.split value = [a; b] -> value <> EmptyString.
Proof. intros H ->. discriminate. Qed.

Example split_two : Str.split "Bearer abc" = ["Bearer"; "abc"].
Proof. reflexivity. Qed.
Example split_double_space : Str.split "a  b" = ["a"; EmptyString; "b"].
Proof. reflexivity. Qed.
Example split_empty : Str.split EmptyString = [EmptyString].
Proof. reflexivity. Qed.
Example lower_mixed : Str.toLowerCase "X-APIAuth_9" = "x-apiauth_9".
Proof. reflexivity. Qed.
Example replace_once : Str.replace_X_prefix "x-X-Key" = "X-Key".
Proof. reflexivity. Qed.
Example bearer_i : Str.test_whole_i "Bearer" "bEARER" = true.
Proof. reflexivity. Qed.
Example bearer_prefix_only : Str.test_whole_i "Bearer" "Bearers" = false.
Proof. reflexivity. Qed.
Example join_three : Str.join ["a"; "b"; "c"] = "a b c".
Proof. reflexivity. Qed.

(** The default strategy is the one the constructor builds. *)
Lemma new_Strategy_default (verify : VerifyFn) :
  new_Strategy (ArgFunction verify) None = inr (default_strategy verify).
Proof. reflexivity. Qed.

(** ** The credential locator *)

#[local] Arguments JS.truthy : simpl never.

Ltac open_authenticate :=
  unfold authenticate, finish, then_, verify_trace, verify_arg,
    bare_challenge in *.

Ltac header_cases :=
  repeat match goal with
  | |- context [match ?x ≫= ?f with _ => _ end] =>
      destruct (x ≫= f) eqn:?
  | |- context [if given ?o then _ else _] => destruct (given o) eqn:?
  | |- context [match Str.split ?v with _ => _ end] =>
      destruct (Str.split v) as [|? [|? [|? ?]]] eqn:?
  | |- context [if Str.test_whole_i ?p ?s then _ else _] =>
      destruct (Str.test_whole_i p s) eqn:?
  end.

(** Whatever the header holds, a credential in both the body and the query
    is answered with status 400. *)
Lemma body_and_query_conflict (self : Strategy) (req : Request) :
  JS.truthy (field (body req) (_bodyName self)) = true ->
  JS.truthy (field (query req) (_queryName self)) = true ->
  authenticate self req = [fail_status 400].
Proof.
  intros Hb Hq. open_authenticate. header_cases; try reflexivity;
    rewrite Hb; cbv beta iota;
    match goal with
    | |- context [if JS.truthy ?t then Returned _ else Next _] =>
        destruct (JS.truthy t); [reflexivity|]
    end;
    rewrite Hq, Hb; reflexivity.
Qed.

(** What the header stage leaves in [token] for a two-part [Bearer] header. *)
Lemma bearer_header_lookup (self : Strategy) (req : Request) (c : string) :
  bearer_header self req c ->
  exists value scheme,
    headers req ≫= (.!! _headerName self) = Some value /\
    given (Some value) = true /\
    Str.split value = [scheme; c] /\
    Str.test_whole_i "Bearer" scheme = true.
Proof.
  intros (h & value & scheme & Hh & Hl & Hs & Ht).
  exists value, scheme. rewrite Hh. simpl. rewrite Hl.
  repeat split; try assumption.
  apply negb_true_iff, eqb_empty_false. eapply split_two_nonempty, Hs.
Qed.

Lemma header_and_other_conflict (self : Strategy) (req : Request) (c : string) :
  bearer_header self req c -> c <> EmptyString ->
  JS.truthy (field (body req) (_bodyName self)) = true \/
  JS.truthy (field (query req) (_queryName self)) = true ->
  authenticate self req = [fail_status 400].
Proof.
  intros Hh Hc Hbq.
  destruct (bearer_header_lookup _ _ _ Hh) as (value & scheme & Hv & Hg & Hs & Ht).
  apply truthy_string in Hc.
  open_authenticate. rewrite Hv, Hg, Hs, Ht.
  destruct (JS.truthy (field (body req) (_bodyName self))) eqn:Hb.
  - rewrite Hc. reflexivity.
  - destruct Hbq as [Hbq|Hq]; [discriminate|]. rewrite Hq, Hc. reflexivity.
Qed.

(** C1: a request that supplies a non-empty credential in two or more of
    the three locations (a two-part [Bearer] header, the configured body
    field, the configured query field) makes exactly one call,
    [fail(400)]; in particular the verify callback is not called.  A
    non-empty string is a truthy value ([truthy_string]). *)
Theorem conflicting_locations_rejected (self : Strategy) (req : Request) :
  (header_supplies self req /\ body_supplies self req) \/
  (header_supplies self req /\ query_supplies self req) \/
  (body_supplies self req /\ query_supplies self req) ->
  authenticate self req = [fail_status 400].
Proof.
  intros [[(c & Hh & Hc) Hb] | [[(c & Hh & Hc) Hq] | [Hb Hq]]].
  - eapply header_and_other_conflict; eauto.
  - eapply header_and_other_conflict; eauto.
  - apply body_and_query_conflict; assumption.
Qed.

Lemma conflicting_locations_witness :
  authenticate (default_strategy (accept_with JS.VUndefined))
    (request_of [("authorization", "Bearer abc")]
       [("access_token", JS.VStr "xyz")] [])
  = [fail_status 400].
Proof.
  apply conflicting_locations_rejected. left. split.
  - exists "abc". split; [|discriminate].
    eexists _, "Bearer abc", "Bearer". repeat split; reflexivity.
  - reflexivity.
Defined.

(** The same in each pair of locations, on sample requests. *)
Example conflict_header_query :
  authenticate (default_strategy (accept_with JS.VUndefined))
    (request_of [("authorization", "bearer abc")] []
       [("access_token", JS.VStr "abc")])
  = [fail_status 400].
Proof. reflexivity. Qed.

Example conflict_body_query :
  authenticate (default_strategy (accept_with JS.VUndefined))
    (request_of [] [("access_token", JS.VStr "abc")]
       [("access_token", JS.VStr "abc")])
  = [fail_status 400].
Proof. reflexivity. Qed.

(** The outcome when the header holds a two-part [Bearer] value: its second
    part competes with the body and query values, and only truthy values
    count. *)
Lemma authenticate_bearer_header (self : Strategy) (req : Request) (c : string) :
  bearer_header self req c ->
  authenticate self req =
  outcome_of_candidates self req
    (List.filter JS.truthy [JS.VStr c; field (body req) (_bodyName self);
                       field (query req) (_queryName self)]).
Proof.
  intros Hh.
  destruct (bearer_header_lookup _ _ _ Hh) as (value & scheme & Hv & Hg & Hs & Ht).
  open_authenticate. rewrite Hv, Hg, Hs, Ht.
  cbn [List.filter].
  destruct (JS.truthy (JS.VStr c)) eqn:Hc;
    destruct (JS.truthy (field (body req) (_bodyName self))) eqn:Hb;
    destruct (JS.truthy (field (query req) (_queryName self))) eqn:Hq;
    simpl; rewrite ?Hc, ?Hb, ?Hq; reflexivity.
Qed.

(** The outcome when the header yields no candidate. *)
Lemma authenticate_no_header_candidate (self : Strategy) (req : Request) :
  header_without_credential self req ->
  authenticate self req =
  outcome_of_candidates self req
    (List.filter JS.truthy [field (body req) (_bodyName self);
                       field (query req) (_queryName self)]).
Proof.
  unfold header_without_credential, authenticate. intros Hh.
  match goal with |- finish (then_ _ ?k) = _ => set (rest := k) end.
  assert (Hrest : forall t, JS.truthy t = false ->
    finish (rest t) =
    outcome_of_candidates self req
      (List.filter JS.truthy [field (body req) (_bodyName self);
                              field (query req) (_queryName self)])).
  { intros t Ht. subst rest. open_authenticate. cbn [List.filter].
    destruct (JS.truthy (field (body req) (_bodyName self))) eqn:Hb;
      destruct (JS.truthy (field (query req) (_queryName self))) eqn:Hq;
      simpl; rewrite ?Ht, ?Hb, ?Hq; reflexivity. }
  clearbody rest.
  destruct (headers req ≫= (.!! _headerName self)) as [value|];
    [|apply Hrest; reflexivity].
  destruct Hh as [-> | (scheme & c & Hs & Hc)]; [apply Hrest; reflexivity|].
  assert (Hg : given (Some value) = true).
  { apply given_some. eapply split_two_nonempty, Hs. }
  rewrite Hg, Hs.
  destruct (Str.test_whole_i "Bearer" scheme) eqn:Ht.
  - destruct Hc as [Hc | ->]; [discriminate|]. apply Hrest. reflexivity.
  - apply Hrest. reflexivity.
Qed.

(** C2, as amended: a request whose configured header value is non-empty
    and splits on a single space into a part count other than two makes
    exactly one call, [fail(400)], whatever the body and the query hold;
    the verify callback is not called.  (An empty header value is skipped
    by the guard on [req.headers[name]].) *)
Theorem malformed_header_rejected (self : Strategy) (req : Request)
    (h : gmap string string) (value : string) :
  headers req = Some h -> h !! _headerName self = Some value ->
  value <> EmptyString ->
  length (Str.split value) <> 2 ->
  authenticate self req = [fail_status 400].
Proof.
  intros Hh Hl Hne Hlen. apply given_some in Hne.
  open_authenticate. rewrite Hh. simpl. rewrite Hl.
  change (negb (value =? EmptyString)) with (given (Some value)). rewrite Hne.
  destruct (Str.split value) as [|a [|b [|c l]]]; try reflexivity.
  contradiction Hlen. reflexivity.
Qed.

Lemma malformed_header_witness :
  authenticate (default_strategy (accept_with JS.VUndefined))
    (request_of [("authorization", "Bearer a b")]
       [("access_token", JS.VStr "xyz")] [])
  = [fail_status 400].
Proof.
  eapply (malformed_header_rejected _ _ _ "Bearer a b");
    [reflexivity | reflexivity | discriminate | vm_compute; lia].
Defined.

(** C2, as stated, fails: the empty header value splits into one part, yet
    the request is not answered with status 400.  Here the token of the
    body reaches the verify callback. *)
Lemma empty_header_not_rejected : ~ every_malformed_header_rejected.
Proof.
  intros H.
  specialize (H (default_strategy never_done)
                (request_of [("authorization", EmptyString)]
                   [("access_token", JS.VStr "tok")] [])
                _ EmptyString eq_refl eq_refl).
  assert (Hlen : length (Str.split EmptyString) <> 2) by (simpl; lia).
  specialize (H Hlen). vm_compute in H. discriminate H.
Qed.

Example empty_header_passes_body_token :
  authenticate (default_strategy never_done)
    (request_of [("authorization", EmptyString)]
       [("access_token", JS.VStr "tok")] [])
  = [verify_called None (JS.VStr "tok")].
Proof. reflexivity. Qed.

Example single_part_header : 
  authenticate (default_strategy never_done)
    (request_of [("authorization", "Bearer")] [] [])
  = [fail_status 400].
Proof. reflexivity. Qed.

(** C5, as amended: when the configured header value is exactly two
    space-separated parts, then (1) if the first part is [Bearer] in any
    letter case and the second part is not empty, the second part is the
    token candidate, and with no body or query credential the verify
    callback receives exactly that token; (2) if the scheme is not
    [Bearer], the header gives no candidate and no error, and the outcome
    is the one of the body and query values alone. *)
Theorem two_part_header (self : Strategy) (req : Request)
    (h : gmap string string) (value scheme credentials : string) :
  headers req = Some h -> h !! _headerName self = Some value ->
  Str.split value = [scheme; credentials] ->
  (Str.test_whole_i "Bearer" scheme = true ->
   credentials <> EmptyString ->
   JS.truthy (field (body req) (_bodyName self)) = false ->
   JS.truthy (field (query req) (_queryName self)) = false ->
   authenticate self req = verify_trace self req (JS.VStr credentials)) /\
  (Str.test_whole_i "Bearer" scheme = false ->
   authenticate self req =
   outcome_of_candidates self req
     (List.filter JS.truthy [field (body req) (_bodyName self);
                             field (query req) (_queryName self)])).
Proof.
  intros Hh Hl Hs. split.
  - intros Ht Hc Hb Hq.
    rewrite (authenticate_bearer_header self req credentials)
      by (exists h, value, scheme; auto).
    apply truthy_string in Hc. cbn [List.filter]. rewrite Hc, Hb, Hq.
    reflexivity.
  - intros Ht. apply authenticate_no_header_candidate.
    unfold header_without_credential. rewrite Hh. simpl. rewrite Hl.
    right. exists scheme, credentials. auto.
Qed.

Lemma two_part_header_witness :
  authenticate (default_strategy (reject_with "bad token"))
    (request_of [("authorization", "BEARER s3cr3t")] [] [])
  = verify_trace (default_strategy (reject_with "bad token"))
      (request_of [("authorization", "BEARER s3cr3t")] [] [])
      (JS.VStr "s3cr3t").
Proof.
  eapply (two_part_header _ _ _ "BEARER s3cr3t" "BEARER" "s3cr3t");
    [reflexivity | reflexivity | reflexivity | reflexivity | discriminate
    | reflexivity | reflexivity].
Defined.

(** C5, as stated, fails: [Bearer] followed by one space has an empty
    second part, which is no credential; with nothing in the body and the
    query the request is answered with the bare challenge and the verify
    callback is not called. *)
Lemma empty_bearer_credentials_not_verified : ~ every_bearer_header_verified.
Proof.
  intros H.
  destruct (H (default_strategy never_done)
              (request_of [("authorization", "Bearer ")] [] [])
              _ "Bearer " "Bearer" EmptyString eq_refl eq_refl eq_refl)
    as [H1 _].
  specialize (H1 eq_refl eq_refl eq_refl). vm_compute in H1. discriminate H1.
Qed.

Example empty_bearer_credentials :
  authenticate (default_strategy never_done)
    (request_of [("authorization", "Bearer ")] [] [])
  = [fail_challenge ("Bearer realm=" ++ dq ++ "Users" ++ dq)].
Proof. reflexivity. Qed.

Example basic_scheme_with_query_token :
  authenticate (default_strategy never_done)
    (request_of [("authorization", "Basic dXNlcg==")] []
       [("access_token", JS.VStr "tok")])
  = [verify_called None (JS.VStr "tok")].
Proof. reflexivity. Qed.

(** The request itself is handed over when [passReqToCallback] is set. *)
Example request_passed_to_verify :
  let self :=
    {| name := "custom-bearer"; _verify := never_done; _realm := "Users";
       _scope := None; _headerName := "authorization";
       _bodyName := "access_token"; _queryName := "access_token";
       _passReqToCallback := true |} in
  let req := request_of [("authorization", "Bearer abc")] [] [] in
  authenticate self req = [verify_called (Some req) (JS.VStr "abc")].
Proof. reflexivity. Qed.

(** ** The bare challenge *)

Lemma bare_challenge_default (verify : VerifyFn) :
  bare_challenge (default_strategy verify)
  = "Bearer realm=" ++ dq ++ "Users" ++ dq.
Proof. reflexivity. Qed.

Lemma authenticate_without_candidates (self : Strategy) (req : Request) :
  header_without_credential self req ->
  JS.truthy (field (body req) (_bodyName self)) = false ->
  JS.truthy (field (query req) (_queryName self)) = false ->
  authenticate self req = [fail_challenge (bare_challenge self)].
Proof.
  intros Hh Hb Hq. rewrite authenticate_no_header_candidate by assumption.
  cbn [List.filter]. rewrite Hb, Hq. reflexivity.
Qed.

(** C6: a request in which no location holds a credential (the configured
    header gives no candidate and no error, the body and query values are
    falsy) makes exactly one call: [fail] with the challenge built with no
    error code.  Under the default configuration that challenge is the
    realm [Users] alone.  The verify callback is not called. *)
Theorem no_credential_challenged (self : Strategy) (req : Request) :
  header_without_credential self req ->
  JS.truthy (field (body req) (_bodyName self)) = false ->
  JS.truthy (field (query req) (_queryName self)) = false ->
  authenticate self req = [fail_challenge (bare_challenge self)] /\
  (forall verify : VerifyFn,
     new_Strategy (ArgFunction verify) None = inr self ->
     authenticate self req
     = [fail_challenge ("Bearer realm=" ++ dq ++ "Users" ++ dq)]).
Proof.
  intros Hh Hb Hq.
  assert (H : authenticate self req = [fail_challenge (bare_challenge self)])
    by (apply authenticate_without_candidates; assumption).
  split; [exact H|].
  intros verify Hnew. rewrite new_Strategy_default in Hnew.
  injection Hnew as <-. rewrite H. reflexivity.
Qed.

Lemma no_credential_witness :
  authenticate (default_strategy (accept_with JS.VUndefined))
    (request_of [("authorization", "Basic dXNlcg==")] []
       [("access_token", JS.VStr EmptyString)])
  = [fail_challenge ("Bearer realm=" ++ dq ++ "Users" ++ dq)].
Proof.
  refine (proj2 (no_credential_challenged
                   (default_strategy (accept_with JS.VUndefined))
                   (request_of [("authorization", "Basic dXNlcg==")] []
                      [("access_token", JS.VStr EmptyString)]) _ _ _)
                (accept_with JS.VUndefined) eq_refl).
  - right. exists "Basic", "dXNlcg==". split; [reflexivity | left; reflexivity].
  - reflexivity.
  - reflexivity.
Defined.

Example no_tables_at_all :
  authenticate (default_strategy never_done)
    {| headers := None; body := None; query := None |}
  = [fail_challenge ("Bearer realm=" ++ dq ++ "Users" ++ dq)].
Proof. reflexivity. Qed.

(** The bare challenge is the answer only in that case. *)
Lemma bare_challenge_only_without_credential (self : Strategy) (req : Request) :
  authenticate self req = [fail_challenge (bare_challenge self)] ->
  JS.truthy (field (body req) (_bodyName self)) = false /\
  JS.truthy (field (query req) (_queryName self)) = false.
Proof.
  open_authenticate. header_cases;
    destruct (JS.truthy (field (body req) (_bodyName self))) eqn:Hb;
    destruct (JS.truthy (field (query req) (_queryName self))) eqn:Hq;
    simpl; rewrite ?Hb, ?Hq; simpl;
    repeat match goal with
    | |- context [if ?c then _ else _] =>
        destruct c; simpl; rewrite ?Hb, ?Hq; simpl
    end; intros; (discriminate || auto).
Qed.

(** ** Presence is truthiness *)

(** C10: at every location a credential is present when its value is
    truthy.  (1, 2) A [Bearer] header with an empty second part is no
    candidate and raises no conflict: the token of the body, or of the
    query, reaches the verify callback.  (3) An empty string in the body
    or in the query is no candidate and raises no conflict with the token
    of the header.  (4) A request whose only credentials are empty strings
    is answered with the bare challenge, not with status 400. *)
Theorem presence_is_truthiness (self : Strategy) (req : Request) :
  let b := field (body req) (_bodyName self) in
  let q := field (query req) (_queryName self) in
  (bearer_header self req EmptyString ->
   JS.truthy b = true -> empty_value q ->
   authenticate self req = verify_trace self req b) /\
  (bearer_header self req EmptyString ->
   empty_value b -> JS.truthy q = true ->
   authenticate self req = verify_trace self req q) /\
  (forall c, bearer_header self req c -> c <> EmptyString ->
   empty_value b -> empty_value q ->
   authenticate self req = verify_trace self req (JS.VStr c)) /\
  (header_without_credential self req ->
   empty_value b -> empty_value q ->
   authenticate self req = [fail_challenge (bare_challenge self)]).
Proof.
  intros b q.
  assert (He : forall v, empty_value v -> JS.truthy v = false).
  { intros v [-> | ->]; reflexivity. }
  repeat split.
  - intros Hh Hb Hq. rewrite (authenticate_bearer_header _ _ _ Hh).
    cbn [List.filter]. fold b q. rewrite Hb, (He q Hq). reflexivity.
  - intros Hh Hb Hq. rewrite (authenticate_bearer_header _ _ _ Hh).
    cbn [List.filter]. fold b q. rewrite Hq, (He b Hb). reflexivity.
  - intros c Hh Hc Hb Hq. rewrite (authenticate_bearer_header _ _ _ Hh).
    apply truthy_string in Hc.
    cbn [List.filter]. fold b q. rewrite Hc, (He b Hb), (He q Hq).
    reflexivity.
  - intros Hh Hb Hq. apply authenticate_without_candidates; auto.
Qed.

Lemma presence_is_truthiness_witness :
  authenticate (default_strategy (accept_with JS.VUndefined))
    (request_of [("authorization", "Bearer ")]
       [("access_token", JS.VStr "tok")]
       [("access_token", JS.VStr EmptyString)])
  = verify_trace (default_strategy (accept_with JS.VUndefined))
      (request_of [("authorization", "Bearer ")]
         [("access_token", JS.VStr "tok")]
         [("access_token", JS.VStr EmptyString)])
      (JS.VStr "tok").
Proof.
  refine (proj1 (presence_is_truthiness
                   (default_strategy (accept_with JS.VUndefined))
                   (request_of [("authorization", "Bearer ")]
                      [("access_token", JS.VStr "tok")]
                      [("access_token", JS.VStr EmptyString)])) _ _ _).
  - eexists _, "Bearer ", "Bearer". repeat split; reflexivity.
  - reflexivity.
  - right. reflexivity.
Defined.

Example only_empty_credentials :
  authenticate (default_strategy (accept_with JS.VUndefined))
    (request_of [("authorization", "bearer ")]
       [("access_token", JS.VStr EmptyString)]
       [("access_token", JS.VStr EmptyString)])
  = [fail_challenge ("Bearer realm=" ++ dq ++ "Users" ++ dq)].
Proof. reflexivity. Qed.

(** ** The challenge string *)

Lemma append_assoc (a b c : string) : (a ++ b) ++ c = a ++ b ++ c.
Proof.
  induction a as [|x a IH]; [reflexivity|].
  change (String x ((a ++ b) ++ c) = String x (a ++ b ++ c)).
  now rewrite IH.
Qed.

Lemma append_empty_r (a : string) : a ++ EmptyString = a.
Proof.
  induction a as [|x a IH]; [reflexivity|].
  change (String x (a ++ EmptyString) = String x a). now rewrite IH.
Qed.


Lemma length_guard (o : option string) :
  JS.truthy (of_option o) && JS.length_truthy (of_option o) = given o.
Proof.
  destruct o as [s|]; [|reflexivity]. unfold JS.truthy. simpl.
  destruct (negb (s =? EmptyString)); reflexivity.
Qed.

Lemma optional_field_given (label : string) (o : option string) :
  optional_field label o =
  if given o then quoted_field label (JS.to_string (of_option o))
  else EmptyString.
Proof.
  destruct o as [s|]; [|reflexivity]. simpl.
  destruct (s =? EmptyString); reflexivity.
Qed.

(** The embedded [join] is the joining by single spaces. *)
Lemma join_space_joined (a : list string) : Str.join a = space_joined a.
Proof.
  unfold space_joined. induction a as [|x r IH]; [reflexivity|].
  destruct r as [|y r]; [reflexivity|].
  change (x ++ " " ++ Str.join (y :: r)
          = x ++ " " ++ String.concat " " (y :: r)).
  now rewrite IH.
Qed.

Example space_joined_two : space_joined ["read"; "write"] = "read write".
Proof. reflexivity. Qed.

Example challenge_format_sample :
  challenge_format "api" (Some ["read"; "write"]) (Some "invalid_token")
    (Some EmptyString) (Some "https://e.x/err")
  = "Bearer realm=" ++ dq ++ "api" ++ dq
    ++ ", scope=" ++ dq ++ "read write" ++ dq
    ++ ", error=" ++ dq ++ "invalid_token" ++ dq
    ++ ", error_uri=" ++ dq ++ "https://e.x/err" ++ dq.
Proof. reflexivity. Qed.

(** The amended format is the format as worded, except for a configured
    scope whose joined value is empty. *)
Lemma challenge_format_as_worded_agrees (realm : string)
    (scope : option (list string)) (code desc uri : option string) :
  (forall sc, scope = Some sc -> space_joined sc <> EmptyString) ->
  challenge_format realm scope code desc uri
  = challenge_format_as_worded realm scope code desc uri.
Proof.
  intros Hs. unfold challenge_format, challenge_format_as_worded.
  destruct scope as [sc|]; [|reflexivity]. simpl.
  specialize (Hs sc eq_refl). apply String.eqb_neq in Hs. rewrite Hs.
  reflexivity.
Qed.




Example challenge_all_fields :
  _challenge
    {| name := "custom-bearer"; _verify := never_done; _realm := "api";
       _scope := Some ["read"; "write"]; _headerName := "authorization";
       _bodyName := "access_token"; _queryName := "access_token";
       _passReqToCallback := false |}
    (JS.VStr "invalid_token") (JS.VStr "expired") (JS.VStr "https://e.x/err")
  = "Bearer realm=" ++ dq ++ "api" ++ dq
    ++ ", scope=" ++ dq ++ "read write" ++ dq
    ++ ", error=" ++ dq ++ "invalid_token" ++ dq
    ++ ", error_description=" ++ dq ++ "expired" ++ dq
    ++ ", error_uri=" ++ dq ++ "https://e.x/err" ++ dq.
Proof. reflexivity. Qed.

(** A configured scope that is an empty array is still a scope. *)
Example challenge_empty_scope_array :
  match new_Strategy
          (ArgOptions {| realm := None; scope := Some (ScopeArray []);
                         headerName := None; bodyName := None;
                         queryName := None; passReqToCallback := false |})
          (Some never_done) with
  | inr self => bare_challenge self
  | inl _ => EmptyString
  end
  = "Bearer realm=" ++ dq ++ "Users" ++ dq ++ ", scope=" ++ dq ++ dq.
Proof. reflexivity. Qed.

(** ** The result handler *)

(** An empty description leaves the challenge as no description does. *)
Lemma challenge_empty_description (self : Strategy) (code uri : JS.Val) :
  _challenge self code (JS.VStr EmptyString) uri
  = _challenge self code JS.VUndefined uri.
Proof. reflexivity. Qed.



(** The same through [authenticate], with a verify callback that rejects. *)
Example rejected_token_trace :
  authenticate (default_strategy (reject_with "bad token"))
    (request_of [("authorization", "Bearer abc")] [] [])
  = [verify_called None (JS.VStr "abc");
     fail_challenge
       ("Bearer realm=" ++ dq ++ "Users" ++ dq
        ++ ", error=" ++ dq ++ "invalid_token" ++ dq
        ++ ", error_description=" ++ dq ++ "bad token" ++ dq)].
Proof. reflexivity. Qed.

(** An error is handed on as it is, whatever the identity. *)
Lemma error_propagated (self : Strategy) (d : DoneArgs) :
  JS.truthy (err d) = true -> verified self d = error (err d).
Proof. intros He. unfold verified. rewrite He. reflexivity. Qed.

(** What the result handler does to the entries of an [info] object. *)
Lemma verified_success (self : Strategy) (d : DoneArgs) :
  JS.truthy (err d) = false -> JS.truthy (user d) = true ->
  verified self d =
  success (user d)
    (JS.set (JS.set (JS.set (JS.or_else (info d) (JS.VObj ∅))
       "headerName" (JS.VStr (_headerName self)))
       "bodyName" (JS.VStr (_bodyName self)))
       "queryName" (JS.VStr (_queryName self))).
Proof. intros He Hu. unfold verified. rewrite He, Hu. reflexivity. Qed.

Lemma not_name_key (k : string) :
  k ∉ name_keys <-> k <> "headerName" /\ k <> "bodyName" /\ k <> "queryName".
Proof.
  unfold name_keys. rewrite !not_elem_of_cons. split.
  - intros (? & ? & ? & _). auto.
  - intros (? & ? & ?). repeat split; auto. apply not_elem_of_nil.
Qed.

(** C8, as amended: when the result handler is called with no error and a
    truthy identity, its one call is [success] with that identity and an
    [info] object in which [headerName], [bodyName] and [queryName] hold
    the three resolved names of the configuration, and in which every
    other key holds what the caller supplied under it, the caller's
    [info] counting as empty when it is left out.  (An entry the caller
    supplied under one of the three keys is overwritten.) *)
Theorem truthy_identity_accepted (self : Strategy) (d : DoneArgs)
    (m : gmap string JS.Val) :
  JS.truthy (err d) = false -> JS.truthy (user d) = true ->
  info d = JS.VObj m \/ (JS.truthy (info d) = false /\ m = ∅) ->
  exists m' : gmap string JS.Val,
    verified self d = success (user d) (JS.VObj m') /\
    m' !! "headerName" = Some (JS.VStr (_headerName self)) /\
    m' !! "bodyName" = Some (JS.VStr (_bodyName self)) /\
    m' !! "queryName" = Some (JS.VStr (_queryName self)) /\
    forall k, k ∉ name_keys -> m' !! k = m !! k.
Proof.
  intros He Hu Hi.
  assert (Ho : JS.or_else (info d) (JS.VObj ∅) = JS.VObj m).
  { destruct Hi as [-> | [Hf ->]]; [reflexivity|].
    unfold JS.or_else. rewrite Hf. reflexivity. }
  eexists. rewrite verified_success, Ho by assumption. simpl.
  split; [reflexivity|]. repeat split.
  - rewrite lookup_insert_ne, lookup_insert_ne by discriminate.
    apply lookup_insert_eq.
  - rewrite lookup_insert_ne by discriminate. apply lookup_insert_eq.
  - apply lookup_insert_eq.
  - intros k Hk. apply not_name_key in Hk. destruct Hk as (H1 & H2 & H3).
    rewrite !lookup_insert_ne by congruence. reflexivity.
Qed.

Lemma truthy_identity_witness :
  exists m' : gmap string JS.Val,
    verified (default_strategy never_done)
      {| err := JS.VNull; user := sample_user;
         info := JS.VObj {[ "scope" := JS.VStr "read" ]} |}
    = success sample_user (JS.VObj m') /\
    m' !! "headerName" = Some (JS.VStr "authorization") /\
    m' !! "bodyName" = Some (JS.VStr "access_token") /\
    m' !! "queryName" = Some (JS.VStr "access_token") /\
    forall k, k ∉ name_keys ->
      m' !! k = ({[ "scope" := JS.VStr "read" ]} : gmap string JS.Val) !! k.
Proof.
  apply (truthy_identity_accepted (default_strategy never_done)
    {| err := JS.VNull; user := sample_user;
       info := JS.VObj {[ "scope" := JS.VStr "read" ]} |}
    {[ "scope" := JS.VStr "read" ]});
    [reflexivity | reflexivity | left; reflexivity].
Defined.

(** The scope of the caller next to the three names. *)
Example scope_retained :
  authenticate
    (default_strategy (accept_with (JS.VObj {[ "scope" := JS.VStr "read" ]})))
    (request_of [("authorization", "Bearer abc")] [] [])
  = [verify_called None (JS.VStr "abc");
     success sample_user
       (JS.VObj (<[ "queryName" := JS.VStr "access_token" ]>
                (<[ "bodyName" := JS.VStr "access_token" ]>
                (<[ "headerName" := JS.VStr "authorization" ]>
                 {[ "scope" := JS.VStr "read" ]}))))].
Proof. reflexivity. Qed.

(** C8, as stated, fails: an entry the caller supplies under [headerName]
    is replaced by the resolved header name. *)
Lemma caller_name_entry_overwritten : ~ every_caller_entry_retained.
Proof.
  intros H.
  destruct (H (default_strategy never_done)
              {| err := JS.VNull; user := sample_user;
                 info := JS.VObj {[ "headerName" := JS.VStr "mine" ]} |}
              {[ "headerName" := JS.VStr "mine" ]}
              eq_refl eq_refl eq_refl)
    as (m' & _ & Hh & _ & _ & Hkeep).
  specialize (Hkeep "headerName" (JS.VStr "mine") eq_refl).
  rewrite Hh in Hkeep. discriminate Hkeep.
Qed.

Example name_entry_replaced :
  verified (default_strategy never_done)
    {| err := JS.VNull; user := sample_user;
       info := JS.VObj {[ "headerName" := JS.VStr "mine" ]} |}
  = success sample_user
      (JS.VObj (<[ "queryName" := JS.VStr "access_token" ]>
               (<[ "bodyName" := JS.VStr "access_token" ]>
                {[ "headerName" := JS.VStr "authorization" ]}))).
Proof. vm_compute. reflexivity. Qed.

(** ** The configuration resolver *)

Lemma lower_char_idempotent (c : ascii) :
  Str.lower_char (Str.lower_char c) = Str.lower_char c.
Proof. destruct c as [[] [] [] [] [] [] [] []]; reflexivity. Qed.

Lemma char_X_lower (c : ascii) :
  Str.char_eq_i "X" c = Ascii.eqb (Str.lower_char c) "x".
Proof. destruct c as [[] [] [] [] [] [] [] []]; reflexivity. Qed.

Lemma char_dash_lower (c : ascii) :
  Ascii.eqb c "-" = Ascii.eqb (Str.lower_char c) "-".
Proof. destruct c as [[] [] [] [] [] [] [] []]; reflexivity. Qed.

Lemma toLowerCase_idempotent (s : string) :
  Str.toLowerCase (Str.toLowerCase s) = Str.toLowerCase s.
Proof.
  induction s as [|c r IH]; simpl; [reflexivity|].
  now rewrite lower_char_idempotent, IH.
Qed.

Lemma toLowerCase_empty (s : string) :
  Str.toLowerCase s = EmptyString <-> s = EmptyString.
Proof. destruct s; simpl; split; intros H; (reflexivity || discriminate). Qed.

(** What the constructor stores, in terms of [getCustomHeaders]. *)
Lemma new_Strategy_names (first : FirstArg) (verify : option VerifyFn)
    (self : Strategy) :
  new_Strategy first verify = inr self ->
  _headerName self
  = or_default (getCustomHeaders (options_of first) "headerName")
      "authorization" /\
  _bodyName self
  = or_default (getCustomHeaders (options_of first) "bodyName")
      "access_token" /\
  _queryName self
  = or_default (getCustomHeaders (options_of first) "queryName")
      "access_token".
Proof.
  unfold new_Strategy. destruct first as [o|f|]; simpl.
  - destruct verify; [|discriminate]. intros [= <-]. auto.
  - intros [= <-]. auto.
  - destruct verify; discriminate.
Qed.

Lemma getCustomHeaders_omitted (o : Options) (which : string) :
  option_named o which = None \/ option_named o which = Some EmptyString ->
  getCustomHeaders o which = None.
Proof. unfold getCustomHeaders. intros [-> | ->]; reflexivity. Qed.

Lemma getCustomHeaders_supplied (o : Options) (which n : string) :
  option_named o which = Some n -> n <> EmptyString ->
  getCustomHeaders o which =
  Some ((if String.eqb which "headerName" then "x-" else EmptyString)
        ++ Str.toLowerCase (Str.replace_X_prefix n)).
Proof.
  intros Hn Hne. unfold getCustomHeaders. rewrite Hn.
  apply given_some in Hne. rewrite Hne.
  destruct (which =? "headerName"); reflexivity.
Qed.

(** C3, as amended: a header name that is supplied and not empty loses one
    leading [X-] (in either letter case), is lower-cased, and gets the
    prefix [x-]; so [APIAuth] resolves to [x-apiauth].  A header name that
    is left out (or empty) resolves to [authorization], without the
    prefix.  The locator reads the header under the resolved key. *)
Theorem header_name_resolved (first : FirstArg) (verify : option VerifyFn)
    (self : Strategy) :
  new_Strategy first verify = inr self ->
  (forall n, headerName (options_of first) = Some n -> n <> EmptyString ->
     _headerName self = "x-" ++ Str.toLowerCase (Str.replace_X_prefix n)) /\
  (headerName (options_of first) = Some "APIAuth" ->
     _headerName self = "x-apiauth") /\
  (headerName (options_of first) = None \/
   headerName (options_of first) = Some EmptyString ->
     _headerName self = "authorization") /\
  (forall n req h value scheme c,
     headerName (options_of first) = Some n -> n <> EmptyString ->
     headers req = Some h ->
     h !! ("x-" ++ Str.toLowerCase (Str.replace_X_prefix n)) = Some value ->
     Str.split value = [scheme; c] ->
     Str.test_whole_i "Bearer" scheme = true ->
     authenticate self req =
     outcome_of_candidates self req
       (List.filter JS.truthy [JS.VStr c; field (body req) (_bodyName self);
                               field (query req) (_queryName self)])).
Proof.
  intros Hnew. destruct (new_Strategy_names _ _ _ Hnew) as (Hh & _ & _).
  assert (Hsup : forall n, headerName (options_of first) = Some n ->
            n <> EmptyString ->
            _headerName self = "x-" ++ Str.toLowerCase (Str.replace_X_prefix n)).
  { intros n Hn Hne. rewrite Hh.
    rewrite (getCustomHeaders_supplied _ _ n) by assumption. reflexivity. }
  split; [exact Hsup|]. split; [|split].
  - intros Hn. rewrite (Hsup _ Hn) by discriminate. reflexivity.
  - intros Hn. rewrite Hh, getCustomHeaders_omitted by exact Hn. reflexivity.
  - intros n req h value scheme c Hn Hne Hr Hl Hs Ht.
    apply authenticate_bearer_header. exists h, value, scheme.
    rewrite (Hsup _ Hn Hne). auto.
Qed.

Lemma header_name_witness :
  _headerName
    {| name := "custom-bearer"; _verify := never_done; _realm := "Users";
       _scope := None; _headerName := "x-apiauth"; _bodyName := "api_token";
       _queryName := "api_token"; _passReqToCallback := false |}
  = "x-" ++ Str.toLowerCase (Str.replace_X_prefix "APIAuth").
Proof.
  refine (proj1 (header_name_resolved
    (ArgOptions (names_only (Some "APIAuth") (Some "api_token")
                   (Some "api_token")))
    (Some never_done) _ eq_refl) "APIAuth" eq_refl _).
  discriminate.
Defined.

(** C3, as stated, fails: with no header name the key is [authorization],
    which carries no [x-] prefix. *)
Lemma default_header_name_unprefixed : ~ header_name_as_specified.
Proof.
  intros H.
  specialize (H (ArgFunction never_done) None _ eq_refl).
  vm_compute in H. discriminate H.
Qed.

Example default_header_name :
  _headerName (default_strategy never_done) = "authorization".
Proof. reflexivity. Qed.

Example README_names :
  new_Strategy
    (ArgOptions (names_only (Some "APIAuth") (Some "api_token")
                   (Some "api_token")))
    (Some never_done)
  = inr {| name := "custom-bearer"; _verify := never_done; _realm := "Users";
           _scope := None; _headerName := "x-apiauth";
           _bodyName := "api_token"; _queryName := "api_token";
           _passReqToCallback := false |}.
Proof. reflexivity. Qed.

(** The resolved header key does not depend on the letter case of the
    name supplied, and resolving it again gives it back. *)
Lemma replace_lower_commute (n n' : string) :
  Str.toLowerCase n = Str.toLowerCase n' ->
  Str.toLowerCase (Str.replace_X_prefix n)
  = Str.toLowerCase (Str.replace_X_prefix n').
Proof.
  intros H.
  destruct n as [|c0 [|c1 r]], n' as [|d0 [|d1 r']]; simpl in H;
    try discriminate; try exact H.
  injection H as H0 H1 Hr. unfold Str.replace_X_prefix.
  rewrite !char_X_lower, (char_dash_lower c1), (char_dash_lower d1), H0, H1.
  destruct (_ && _); simpl; congruence.
Qed.

Lemma header_key_any_case (n n' : string) :
  Str.toLowerCase n = Str.toLowerCase n' ->
  header_key_as_specified (Some n) = header_key_as_specified (Some n').
Proof.
  intros H. unfold header_key_as_specified.
  now rewrite (replace_lower_commute n n' H).
Qed.

Lemma header_key_canonical (n : string) :
  header_key_as_specified (Some (header_key_as_specified (Some n)))
  = header_key_as_specified (Some n).
Proof.
  unfold header_key_as_specified.
  change (Str.replace_X_prefix
            ("x-" ++ Str.toLowerCase (Str.replace_X_prefix n)))
    with (Str.toLowerCase (Str.replace_X_prefix n)).
  now rewrite toLowerCase_idempotent.
Qed.

(** C4, as amended: a body or query name that is supplied, is not empty and
    does not start with [X-] (in either letter case) resolves to exactly
    its lower-cased form, with no prefix added; a name that is left out (or
    empty) resolves to [access_token]. *)
Theorem field_names_resolved (first : FirstArg) (verify : option VerifyFn)
    (self : Strategy) :
  new_Strategy first verify = inr self ->
  (forall n, bodyName (options_of first) = Some n -> n <> EmptyString ->
     Str.replace_X_prefix n = n -> _bodyName self = Str.toLowerCase n) /\
  (forall n, queryName (options_of first) = Some n -> n <> EmptyString ->
     Str.replace_X_prefix n = n -> _queryName self = Str.toLowerCase n) /\
  (bodyName (options_of first) = None \/
   bodyName (options_of first) = Some EmptyString ->
     _bodyName self = "access_token") /\
  (queryName (options_of first) = None \/
   queryName (options_of first) = Some EmptyString ->
     _queryName self = "access_token").
Proof.
  intros Hnew. destruct (new_Strategy_names _ _ _ Hnew) as (_ & Hb & Hq).
  assert (Hd : forall n, n <> EmptyString ->
            or_default (Some (Str.toLowerCase n)) "access_token"
            = Str.toLowerCase n).
  { intros n Hne. unfold or_default.
    destruct (Str.toLowerCase n =? EmptyString) eqn:E; [|reflexivity].
    apply String.eqb_eq in E. apply (proj1 (toLowerCase_empty n)) in E. congruence. }
  repeat split.
  - intros n Hn Hne Hx. rewrite Hb.
    rewrite (getCustomHeaders_supplied _ _ n) by assumption.
    rewrite Hx. apply Hd, Hne.
  - intros n Hn Hne Hx. rewrite Hq.
    rewrite (getCustomHeaders_supplied _ _ n) by assumption.
    rewrite Hx. apply Hd, Hne.
  - intros Hn. rewrite Hb, getCustomHeaders_omitted by exact Hn. reflexivity.
  - intros Hn. rewrite Hq, getCustomHeaders_omitted by exact Hn. reflexivity.
Qed.

Lemma field_names_witness :
  _bodyName
    {| name := "custom-bearer"; _verify := never_done; _realm := "Users";
       _scope := None; _headerName := "authorization";
       _bodyName := "api_token"; _queryName := "access_token";
       _passReqToCallback := false |}
  = Str.toLowerCase "API_Token".
Proof.
  refine (proj1 (field_names_resolved
    (ArgOptions (names_only None (Some "API_Token") None))
    (Some never_done) _ eq_refl) "API_Token" eq_refl _ eq_refl).
  discriminate.
Defined.

(** C4, as stated, fails, at two kinds of name.  An empty body name does
    not pass the guard on [options[which]] and resolves to the default,
    not to the empty string.  A body name that starts with [X-] loses that
    prefix, so [X-Token] resolves to [token] and not to its lower-cased
    form [x-token]. *)
Lemma field_name_not_lowercased_input :
  ~ field_names_as_specified /\
  (new_Strategy (ArgOptions (names_only None (Some EmptyString) None))
     (Some never_done)
   = inr (default_strategy never_done)) /\
  (exists self,
     new_Strategy (ArgOptions (names_only None (Some "X-Token") None))
       (Some never_done) = inr self /\
     _bodyName self = "token" /\
     field_key_as_specified (Some "X-Token") = "x-token").
Proof.
  split; [|split].
  - intros H.
    destruct (H (ArgOptions (names_only None (Some EmptyString) None))
                (Some never_done) _ eq_refl) as [Hb _].
    vm_compute in Hb. discriminate Hb.
  - reflexivity.
  - eexists. repeat split; reflexivity.
Qed.

Example body_name_prefix_dropped :
  option_map _bodyName
    (match new_Strategy
             (ArgOptions (names_only None (Some "X-Token") None))
             (Some never_done) with inr s => Some s | inl _ => None end)
  = Some "token".
Proof. reflexivity. Qed.

Example query_name_empty :
  option_map _queryName
    (match new_Strategy
             (ArgOptions (names_only None None (Some EmptyString)))
             (Some never_done) with inr s => Some s | inl _ => None end)
  = Some "access_token".
Proof. reflexivity. Qed.

Example query_name_only_prefix :
  option_map _queryName
    (match new_Strategy
             (ArgOptions (names_only None None (Some "x-")))
             (Some never_done) with inr s => Some s | inl _ => None end)
  = Some "access_token".
Proof. reflexivity. Qed.

(** ** The constructor *)

Lemma verify_required (o : Options) :
  new_Strategy (ArgOptions o) None
  = inl (TypeError "HTTPBearerStrategy requires a verify callback").
Proof. reflexivity. Qed.

Lemma new_Strategy_total (first : FirstArg) (verify : VerifyFn) :
  first <> ArgMissing ->
  exists self, new_Strategy first (Some verify) = inr self.
Proof. destruct first; simpl; eauto. contradiction. Qed.

(** * Further properties *)

(** ** The constructor *)

(** The constructor throws its own [TypeError] exactly when the first
    argument is not a function and no verify callback follows, be the
    first argument an options object or missing.  With a callback after a
    missing first argument it throws on reading [options.realm].  With the
    callback as first argument the second argument is not looked at and
    every option takes its default.  With an options object and a
    callback it builds a strategy that holds the callback. *)
Theorem constructor_outcome (first : FirstArg) (verify : option VerifyFn) :
  (new_Strategy first verify = inl requires_verify <->
   (forall f, first <> ArgFunction f) /\ verify = None) /\
  (forall f, first = ArgMissing -> verify = Some f ->
     new_Strategy first verify = inl (TypeErrorReading "realm")) /\
  (forall f, first = ArgFunction f ->
     new_Strategy first verify = inr (default_strategy f)) /\
  (forall o f, first = ArgOptions o -> verify = Some f ->
     exists self, new_Strategy first verify = inr self /\ _verify self = f).
Proof.
  split; [split|split; [|split]].
  - intros H. destruct first as [o|f|]; [| discriminate H |];
      (destruct verify; [discriminate H|]); split; (discriminate || reflexivity).
  - intros [Hf ->]. destruct first as [o|f|]; [reflexivity | | reflexivity].
    contradiction (Hf f). reflexivity.
  - intros f -> ->. reflexivity.
  - intros f ->. reflexivity.
  - intros o f -> ->. eexists. split; reflexivity.
Qed.

Lemma or_default_nonempty (o : option string) (d : string) :
  d <> EmptyString -> or_default o d <> EmptyString.
Proof.
  intros Hd. unfold or_default. destruct o as [s|]; [|assumption].
  destruct (s =? EmptyString) eqn:E; [assumption|].
  now apply String.eqb_neq in E.
Qed.

Lemma toLowerCase_append (a b : string) :
  Str.toLowerCase (a ++ b) = Str.toLowerCase a ++ Str.toLowerCase b.
Proof.
  induction a as [|c r IH]; [reflexivity|].
  change (String (Str.lower_char c) (Str.toLowerCase (r ++ b))
          = String (Str.lower_char c) (Str.toLowerCase r ++ Str.toLowerCase b)).
  now rewrite IH.
Qed.

Lemma getCustomHeaders_lower (o : Options) (which k : string) :
  getCustomHeaders o which = Some k -> Str.toLowerCase k = k.
Proof.
  unfold getCustomHeaders. destruct (option_named o which) as [v|]; [|discriminate].
  destruct (given (Some v)); [|discriminate].
  destruct (which =? "headerName"); intros [= <-].
  - rewrite toLowerCase_append, toLowerCase_idempotent. reflexivity.
  - apply toLowerCase_idempotent.
Qed.

Lemma or_default_lower (o : option string) (d : string) :
  (forall k, o = Some k -> Str.toLowerCase k = k) ->
  Str.toLowerCase d = d ->
  Str.toLowerCase (or_default o d) = or_default o d.
Proof.
  intros Ho Hd. unfold or_default. destruct o as [s|]; [|assumption].
  destruct (s =? EmptyString); [assumption | auto].
Qed.

(** Every strategy the constructor builds has a non-empty realm and three
    non-empty field names that lower-casing leaves as they are; its header
    name is [authorization] or starts with [x-]. *)
Theorem configuration_invariant (first : FirstArg) (verify : option VerifyFn)
    (self : Strategy) :
  new_Strategy first verify = inr self ->
  _realm self <> EmptyString /\
  (_headerName self <> EmptyString /\ _bodyName self <> EmptyString /\
   _queryName self <> EmptyString) /\
  (Str.toLowerCase (_headerName self) = _headerName self /\
   Str.toLowerCase (_bodyName self) = _bodyName self /\
   Str.toLowerCase (_queryName self) = _queryName self) /\
  (_headerName self = "authorization" \/
   exists f, _headerName self = "x-" ++ f).
Proof.
  intros Hnew.
  destruct (new_Strategy_names _ _ _ Hnew) as (Hh & Hb & Hq).
  assert (Hr : _realm self = or_default (realm (options_of first)) "Users").
  { unfold new_Strategy in Hnew. destruct first as [o|f|]; simpl in Hnew.
    - destruct verify; [|discriminate]. now injection Hnew as <-.
    - now injection Hnew as <-.
    - destruct verify; discriminate. }
  split; [rewrite Hr; now apply or_default_nonempty|].
  split; [rewrite Hh, Hb, Hq; repeat split; now apply or_default_nonempty|].
  split.
  - rewrite Hh, Hb, Hq.
    repeat split; apply or_default_lower;
      eauto using getCustomHeaders_lower.
  - rewrite Hh. unfold getCustomHeaders.
    change (option_named (options_of first) "headerName")
      with (headerName (options_of first)).
    destruct (headerName (options_of first)) as [n|]; [|left; reflexivity].
    destruct (given (Some n)); [|left; reflexivity].
    right. eexists. reflexivity.
Qed.

Lemma configuration_invariant_witness :
  _realm (default_strategy never_done) <> EmptyString.
Proof.
  exact (proj1 (configuration_invariant (ArgFunction never_done) None
                  (default_strategy never_done) eq_refl)).
Defined.

Lemma lower_given (n n' : string) :
  Str.toLowerCase n = Str.toLowerCase n' -> given (Some n) = given (Some n').
Proof. destruct n, n'; simpl; intros H; (reflexivity || discriminate). Qed.

Lemma getCustomHeaders_any_case (o o' : Options) (which : string) :
  same_up_to_case (option_named o which) (option_named o' which) ->
  getCustomHeaders o which = getCustomHeaders o' which.
Proof.
  unfold same_up_to_case, getCustomHeaders.
  destruct (option_named o which) as [n|], (option_named o' which) as [n'|];
    simpl; try discriminate; [|reflexivity].
  intros [= H].
  change (negb (n =? EmptyString)) with (given (Some n)).
  change (negb (n' =? EmptyString)) with (given (Some n')).
  rewrite (lower_given n n' H), (replace_lower_commute n n' H). reflexivity.
Qed.

(** Names that differ only in letter case configure the same lookup keys. *)
Theorem names_any_case (first first' : FirstArg)
    (verify verify' : option VerifyFn) (self self' : Strategy) :
  new_Strategy first verify = inr self ->
  new_Strategy first' verify' = inr self' ->
  same_up_to_case (headerName (options_of first))
    (headerName (options_of first')) ->
  same_up_to_case (bodyName (options_of first))
    (bodyName (options_of first')) ->
  same_up_to_case (queryName (options_of first))
    (queryName (options_of first')) ->
  _headerName self = _headerName self' /\
  _bodyName self = _bodyName self' /\
  _queryName self = _queryName self'.
Proof.
  intros Hn Hn' Hh Hb Hq.
  destruct (new_Strategy_names _ _ _ Hn) as (-> & -> & ->).
  destruct (new_Strategy_names _ _ _ Hn') as (-> & -> & ->).
  rewrite (getCustomHeaders_any_case _ (options_of first') "headerName") by exact Hh.
  rewrite (getCustomHeaders_any_case _ (options_of first') "bodyName") by exact Hb.
  rewrite (getCustomHeaders_any_case _ (options_of first') "queryName") by exact Hq.
  auto.
Qed.

Lemma names_any_case_witness :
  _headerName
    {| name := "custom-bearer"; _verify := never_done; _realm := "Users";
       _scope := None; _headerName := "x-apiauth"; _bodyName := "api_token";
       _queryName := "access_token"; _passReqToCallback := false |}
  = _headerName
    {| name := "custom-bearer"; _verify := never_done; _realm := "Users";
       _scope := None; _headerName := "x-apiauth"; _bodyName := "api_token";
       _queryName := "access_token"; _passReqToCallback := false |}.
Proof.
  refine (proj1 (names_any_case
    (ArgOptions (names_only (Some "APIAuth") (Some "API_Token") None))
    (ArgOptions (names_only (Some "apiAUTH") (Some "api_token") None))
    (Some never_done) (Some never_done) _ _ eq_refl eq_refl _ _ _));
    reflexivity.
Defined.

(** Feeding a resolved custom header name back as [headerName] gives the
    same key again. *)
Theorem header_name_fixed_point (first first' : FirstArg)
    (verify verify' : option VerifyFn) (self self' : Strategy) (n : string) :
  new_Strategy first verify = inr self ->
  headerName (options_of first) = Some n -> n <> EmptyString ->
  new_Strategy first' verify' = inr self' ->
  headerName (options_of first') = Some (_headerName self) ->
  _headerName self' = _headerName self.
Proof.
  intros Hn Ho Hne Hn' Ho'.
  destruct (new_Strategy_names _ _ _ Hn) as (Hh & _ & _).
  destruct (new_Strategy_names _ _ _ Hn') as (Hh' & _ & _).
  rewrite (getCustomHeaders_supplied _ _ n) in Hh by assumption.
  simpl in Hh.
  assert (Hk : _headerName self <> EmptyString) by (rewrite Hh; discriminate).
  rewrite (getCustomHeaders_supplied _ _ (_headerName self)) in Hh'
    by assumption.
  rewrite Hh', Hh.
  assert (E : forall f, Str.replace_X_prefix ("x-" ++ f) = f) by reflexivity.
  rewrite E, toLowerCase_idempotent. reflexivity.
Qed.

Lemma header_name_fixed_point_witness :
  _headerName
    {| name := "custom-bearer"; _verify := never_done; _realm := "Users";
       _scope := None; _headerName := "x-apiauth";
       _bodyName := "access_token"; _queryName := "access_token";
       _passReqToCallback := false |}
  = "x-apiauth".
Proof.
  refine (header_name_fixed_point
    (ArgOptions (names_only (Some "APIAuth") None None))
    (ArgOptions (names_only (Some "x-apiauth") None None))
    (Some never_done) (Some never_done) _ _ "APIAuth"
    eq_refl eq_refl _ eq_refl eq_refl).
  discriminate.
Defined.

(** The default header key is not such a fixed point. *)
Example default_header_name_fed_back :
  new_Strategy (ArgOptions (names_only (Some "authorization") None None))
    (Some never_done)
  = inr {| name := "custom-bearer"; _verify := never_done; _realm := "Users";
           _scope := None; _headerName := "x-authorization";
           _bodyName := "access_token"; _queryName := "access_token";
           _passReqToCallback := false |}.
Proof. reflexivity. Qed.

Lemma constructor_outcome_witness :
  new_Strategy (ArgOptions no_options) None = inl requires_verify.
Proof.
  apply (proj2 (proj1 (constructor_outcome (ArgOptions no_options) None))).
  split; [discriminate | reflexivity].
Defined.

Example constructor_without_arguments :
  new_Strategy ArgMissing None = inl requires_verify.
Proof. reflexivity. Qed.

Example constructor_undefined_options :
  new_Strategy ArgMissing (Some never_done) = inl (TypeErrorReading "realm").
Proof. reflexivity. Qed.

(** A body or query name that starts with [X-] or [x-] loses that prefix
    and is not given it back: what follows the prefix, lower-cased, is the
    key, and if nothing follows, the key is [access_token]. *)
Theorem field_name_prefix_dropped (first : FirstArg)
    (verify : option VerifyFn) (self : Strategy) (x : ascii) (r : string) :
  new_Strategy first verify = inr self ->
  x = "X"%char \/ x = "x"%char ->
  (bodyName (options_of first) = Some (String x (String "-" r)) ->
   _bodyName self = or_default (Some (Str.toLowerCase r)) "access_token") /\
  (queryName (options_of first) = Some (String x (String "-" r)) ->
   _queryName self = or_default (Some (Str.toLowerCase r)) "access_token").
Proof.
  intros Hnew Hx. destruct (new_Strategy_names _ _ _ Hnew) as (_ & Hb & Hq).
  assert (E : Str.replace_X_prefix (String x (String "-" r)) = r)
    by (destruct Hx as [-> | ->]; reflexivity).
  split; intros Hn.
  - rewrite Hb,
      (getCustomHeaders_supplied (options_of first) "bodyName" _ Hn)
      by discriminate.
    rewrite E. reflexivity.
  - rewrite Hq,
      (getCustomHeaders_supplied (options_of first) "queryName" _ Hn)
      by discriminate.
    rewrite E. reflexivity.
Qed.

Lemma field_name_prefix_dropped_witness :
  _bodyName
    {| name := "custom-bearer"; _verify := never_done; _realm := "Users";
       _scope := None; _headerName := "authorization";
       _bodyName := "token"; _queryName := "access_token";
       _passReqToCallback := false |}
  = or_default (Some (Str.toLowerCase "Token")) "access_token".
Proof.
  refine (proj1 (field_name_prefix_dropped
    (ArgOptions (names_only None (Some "X-Token") None)) (Some never_done)
    _ "X"%char "Token" eq_refl _) eq_refl).
  left. reflexivity.
Defined.

(** A scope given as one non-empty string configures what the one-element
    array of that string configures; a scope given as the empty string
    configures what no scope configures. *)
Theorem scope_string_as_array (o : Options) (verify : option VerifyFn)
    (s : string) :
  scope o = Some (ScopeString s) ->
  (s <> EmptyString ->
   new_Strategy (ArgOptions o) verify
   = new_Strategy (ArgOptions (with_scope o (Some (ScopeArray [s])))) verify) /\
  (s = EmptyString ->
   new_Strategy (ArgOptions o) verify
   = new_Strategy (ArgOptions (with_scope o None)) verify).
Proof.
  intros Hs. unfold new_Strategy. destruct verify as [f|]; [|split; reflexivity].
  unfold getCustomHeaders, option_named, with_scope. simpl. rewrite Hs.
  split.
  - intros Hne. apply String.eqb_neq in Hne. rewrite Hne. reflexivity.
  - intros ->. reflexivity.
Qed.

Lemma scope_string_as_array_witness :
  new_Strategy
    (ArgOptions {| realm := None; scope := Some (ScopeString "read");
                   headerName := None; bodyName := None; queryName := None;
                   passReqToCallback := false |}) (Some never_done)
  = new_Strategy
      (ArgOptions {| realm := None; scope := Some (ScopeArray ["read"]);
                     headerName := None; bodyName := None; queryName := None;
                     passReqToCallback := false |}) (Some never_done).
Proof.
  refine (proj1 (scope_string_as_array
    {| realm := None; scope := Some (ScopeString "read");
       headerName := None; bodyName := None; queryName := None;
       passReqToCallback := false |} (Some never_done) "read" eq_refl) _).
  discriminate.
Defined.

(** ** The challenge *)

(** For arguments that are [undefined], [null], booleans or strings, a
    challenge starts with the bare challenge: the [Bearer] scheme, the
    quoted realm and the configured scope.  The arguments only add fields
    after it. *)
Theorem challenge_extends_bare (self : Strategy) (code desc uri : JS.Val) :
  is_object code = false -> is_object desc = false ->
  is_object uri = false ->
  exists rest, _challenge self code desc uri = bare_challenge self ++ rest.
Proof.
  intros _ _ _.
  unfold bare_challenge, _challenge. cbv zeta.
  change (JS.truthy JS.VUndefined) with false. cbv iota beta.
  change (false && JS.length_truthy JS.VUndefined) with false. cbv iota beta.
  set (base := match _scope self with
               | Some sc => _
               | None => _
               end).
  destruct (JS.truthy code), (JS.truthy desc && JS.length_truthy desc),
    (JS.truthy uri && JS.length_truthy uri);
    rewrite ?append_assoc; eauto.
  exists EmptyString. now rewrite append_empty_r.
Qed.

Lemma challenge_extends_bare_witness :
  exists rest,
    _challenge (default_strategy never_done) (JS.VBool true)
      (JS.VStr "expired") JS.VNull
    = bare_challenge (default_strategy never_done) ++ rest.
Proof.
  apply (challenge_extends_bare (default_strategy never_done));
    reflexivity.
Defined.

Lemma challenge_invalid_token (self : Strategy) (desc : option string) :
  _challenge self (JS.VStr "invalid_token") (of_option desc) JS.VUndefined
  = challenge_format (_realm self) (_scope self) (Some "invalid_token")
      desc None.
Proof.
  unfold _challenge, challenge_format. cbv zeta.
  rewrite (length_guard desc), !optional_field_given.
  change (JS.truthy (JS.VStr "invalid_token")) with true.
  change (JS.truthy JS.VUndefined && JS.length_truthy JS.VUndefined)
    with false.
  change (given (Some "invalid_token")) with true.
  change (given None) with false.
  unfold quoted_field. cbv iota.
  destruct (_scope self) as [sc|], (given desc);
    rewrite ?join_space_joined, ?append_assoc, ?append_empty_r; reflexivity.
Qed.

(** ** The result handler *)

(** A rejection takes its description from [info]: an [info] object that
    holds a string under [message] is treated as that string is; any
    [info] that is not a string and has nothing under [message] (left out,
    [null], an object without that key, a boolean) gives the challenge
    with the error [invalid_token] and no description. *)
Theorem rejection_description (self : Strategy) (d : DoneArgs) :
  JS.truthy (err d) = false -> JS.truthy (user d) = false ->
  (forall m s, info d = JS.VObj m -> m !! "message" = Some (JS.VStr s) ->
     verified self d
     = fail_challenge
         (challenge_format (_realm self) (_scope self) (Some "invalid_token")
            (Some s) None)) /\
  (JS.is_string (info d) = false ->
   JS.get (info d) "message" = JS.VUndefined ->
     verified self d
     = fail_challenge
         (challenge_format (_realm self) (_scope self) (Some "invalid_token")
            None None)).
Proof.
  intros He Hu. split.
  - intros m s Hi Hm. unfold verified. rewrite He, Hu, Hi. simpl.
    rewrite Hm. simpl. f_equal. apply (challenge_invalid_token self (Some s)).
  - intros Hs Hg. unfold verified. rewrite He, Hu. simpl.
    rewrite <- (challenge_invalid_token self None). f_equal.
    unfold JS.or_else.
    destruct (info d) as [| |[]|s|m]; try discriminate; try reflexivity.
    simpl in *. rewrite Hg. reflexivity.
Qed.

Lemma rejection_description_witness :
  verified (default_strategy never_done)
    {| err := JS.VNull; user := JS.VNull;
       info := JS.VObj {[ "message" := JS.VStr "expired" ]} |}
  = fail_challenge
      (challenge_format "Users" None (Some "invalid_token") (Some "expired")
         None).
Proof.
  refine (proj1 (rejection_description (default_strategy never_done)
    {| err := JS.VNull; user := JS.VNull;
       info := JS.VObj {[ "message" := JS.VStr "expired" ]} |}
    eq_refl eq_refl) {[ "message" := JS.VStr "expired" ]} "expired"
    eq_refl eq_refl).
Defined.

(** With a truthy identity, an [info] that is truthy but not an object (a
    string, [true]) is handed to [success] as it is: the three names cannot
    be stored on it. *)
Theorem primitive_info_unchanged (self : Strategy) (d : DoneArgs) :
  JS.truthy (err d) = false -> JS.truthy (user d) = true ->
  JS.truthy (info d) = true -> is_object (info d) = false ->
  verified self d = success (user d) (info d).
Proof.
  intros He Hu Hi Ho. rewrite verified_success by assumption.
  unfold JS.or_else. rewrite Hi.
  destruct (info d); try discriminate; reflexivity.
Qed.

Lemma primitive_info_unchanged_witness :
  verified (default_strategy never_done)
    {| err := JS.VNull; user := sample_user; info := JS.VStr "ok" |}
  = success sample_user (JS.VStr "ok").
Proof.
  apply (primitive_info_unchanged (default_strategy never_done)
    {| err := JS.VNull; user := sample_user; info := JS.VStr "ok" |});
    reflexivity.
Defined.



(** ** The locator as a whole *)

Lemma malformed_header_400 (self : Strategy) (req : Request) :
  header_malformed self req -> authenticate self req = [fail_status 400].
Proof.
  intros (h & value & Hh & Hl & Hne & Hlen). apply given_some in Hne.
  open_authenticate. rewrite Hh. simpl. rewrite Hl.
  change (negb (value =? EmptyString)) with (given (Some value)). rewrite Hne.
  destruct (Str.split value) as [|a [|b [|c l]]]; try reflexivity.
  contradiction Hlen. reflexivity.
Qed.

(** The configured header is in exactly one of three states. *)
Lemma header_trichotomy (self : Strategy) (req : Request) :
  header_malformed self req \/
  header_without_credential self req \/
  exists c, bearer_header self req c /\ c <> EmptyString.
Proof.
  unfold header_malformed, header_without_credential, bearer_header.
  destruct (headers req) as [h|]; simpl; [|right; left; exact I].
  destruct (h !! _headerName self) as [value|] eqn:Hl; [|right; left; exact I].
  destruct (String.eqb_spec value EmptyString) as [Hv|Hv];
    [right; left; left; exact Hv|].
  destruct (Str.split value) as [|a [|b [|c l]]] eqn:Hs.
  - left. exists h, value. rewrite Hs. repeat split; auto.
  - left. exists h, value. rewrite Hs. repeat split; auto.
  - destruct (Str.test_whole_i "Bearer" a) eqn:Ht.
    + destruct (String.eqb_spec b EmptyString) as [Hb|Hb].
      * right; left; right. exists a, b. auto.
      * right; right. exists b. split; [|exact Hb].
        exists h, value, a. auto.
    + right; left; right. exists a, b. auto.
  - left. exists h, value. rewrite Hs. repeat split; auto.
Qed.



(** The answer is [fail(400)] exactly when the header is malformed or two
    of the three locations supply a credential. *)
Theorem status_400_iff (self : Strategy) (req : Request) :
  authenticate self req = [fail_status 400] <->
  header_malformed self req \/
  (header_supplies self req /\ body_supplies self req) \/
  (header_supplies self req /\ query_supplies self req) \/
  (body_supplies self req /\ query_supplies self req).
Proof.
  unfold header_supplies, body_supplies, query_supplies. split.
  - intros H400.
    destruct (header_trichotomy self req) as [Hm | [Hn | (c & Hc & Hne)]];
      [left; exact Hm | |].
    + rewrite (authenticate_no_header_candidate _ _ Hn) in H400.
      cbn [List.filter] in H400.
      destruct (JS.truthy (field (body req) (_bodyName self))) eqn:Hb,
        (JS.truthy (field (query req) (_queryName self))) eqn:Hq;
        simpl in H400; try discriminate H400.
      right; right; right. auto.
    + rewrite (authenticate_bearer_header _ _ _ Hc) in H400.
      apply truthy_string in Hne as Ht.
      cbn [List.filter] in H400. rewrite Ht in H400.
      destruct (JS.truthy (field (body req) (_bodyName self))) eqn:Hb,
        (JS.truthy (field (query req) (_queryName self))) eqn:Hq;
        simpl in H400; try discriminate H400.
      * right; left. eauto.
      * right; left. eauto.
      * right; right; left. eauto.
  - intros [Hm | [[(c & Hc & Hne) Hb] | [[(c & Hc & Hne) Hq] | [Hb Hq]]]].
    + apply malformed_header_400, Hm.
    + eapply header_and_other_conflict; eauto.
    + eapply header_and_other_conflict; eauto.
    + apply body_and_query_conflict; assumption.
Qed.

Lemma status_400_iff_witness :
  header_malformed (default_strategy never_done)
    (request_of [("authorization", "Bearer")] [] []).
Proof.
  assert (H := proj1 (status_400_iff (default_strategy never_done)
    (request_of [("authorization", "Bearer")] [] [])) eq_refl).
  destruct H as [H | [[_ H] | [[_ H] | [H _]]]];
    [exact H | discriminate H | discriminate H | discriminate H].
Defined.

(** The answer is [fail] with the bare challenge exactly when no location
    supplies a credential and the header is not malformed. *)
Theorem bare_challenge_iff (self : Strategy) (req : Request) :
  authenticate self req = [fail_challenge (bare_challenge self)] <->
  header_without_credential self req /\
  JS.truthy (field (body req) (_bodyName self)) = false /\
  JS.truthy (field (query req) (_queryName self)) = false.
Proof.
  split.
  - intros Hc.
    destruct (header_trichotomy self req) as [Hm | [Hn | (c & Hh & Hne)]].
    + rewrite (malformed_header_400 _ _ Hm) in Hc. discriminate Hc.
    + split; [exact Hn|].
      apply bare_challenge_only_without_credential, Hc.
    + rewrite (authenticate_bearer_header _ _ _ Hh) in Hc.
      apply truthy_string in Hne as Ht.
      cbn [List.filter] in Hc. rewrite Ht in Hc.
      destruct (JS.truthy (field (body req) (_bodyName self))),
        (JS.truthy (field (query req) (_queryName self)));
        simpl in Hc; discriminate Hc.
  - intros (Hn & Hb & Hq). apply authenticate_without_candidates; assumption.
Qed.

Lemma bare_challenge_iff_witness :
  authenticate (default_strategy never_done)
    (request_of [("x-other", "Bearer abc")] [] [])
  = [fail_challenge (bare_challenge (default_strategy never_done))].
Proof.
  apply (proj2 (bare_challenge_iff (default_strategy never_done)
    (request_of [("x-other", "Bearer abc")] [] []))).
  repeat split; reflexivity.
Defined.

(** With no candidate from the header, a credential in the body alone, or
    in the query alone, is the token the verify callback receives. *)
Theorem single_field_verified (self : Strategy) (req : Request) :
  header_without_credential self req ->
  (JS.truthy (field (body req) (_bodyName self)) = true ->
   JS.truthy (field (query req) (_queryName self)) = false ->
   authenticate self req
   = verify_trace self req (field (body req) (_bodyName self))) /\
  (JS.truthy (field (body req) (_bodyName self)) = false ->
   JS.truthy (field (query req) (_queryName self)) = true ->
   authenticate self req
   = verify_trace self req (field (query req) (_queryName self))).
Proof.
  intros Hn. rewrite (authenticate_no_header_candidate _ _ Hn).
  cbn [List.filter]. split; intros Hb Hq; rewrite Hb, Hq; reflexivity.
Qed.

Lemma single_field_verified_witness :
  authenticate (default_strategy never_done)
    (request_of [] [] [("access_token", JS.VStr "tok")])
  = verify_trace (default_strategy never_done)
      (request_of [] [] [("access_token", JS.VStr "tok")]) (JS.VStr "tok").
Proof.
  refine (proj2 (single_field_verified (default_strategy never_done)
    (request_of [] [] [("access_token", JS.VStr "tok")]) _) eq_refl eq_refl).
  exact I.
Defined.

(** When the request is not handed to the verify callback, the outcome
    depends on the request only through the three values read: the
    configured header, body field and query field. *)
Theorem only_configured_fields_read (self : Strategy) (req req' : Request) :
  _passReqToCallback self = false ->
  headers req ≫= (.!! _headerName self)
  = headers req' ≫= (.!! _headerName self) ->
  field (body req) (_bodyName self) = field (body req') (_bodyName self) ->
  field (query req) (_queryName self) = field (query req') (_queryName self) ->
  authenticate self req = authenticate self req'.
Proof.
  intros Hp Hh Hb Hq. unfold authenticate. rewrite Hp, Hh, Hb, Hq.
  reflexivity.
Qed.

Lemma only_configured_fields_read_witness :
  authenticate (default_strategy (accept_with JS.VUndefined))
    (request_of [("authorization", "Bearer abc"); ("x-other", "Bearer zzz")]
       [("token", JS.VStr "t")] [])
  = authenticate (default_strategy (accept_with JS.VUndefined))
      (request_of [("authorization", "Bearer abc")] [] []).
Proof.
  apply only_configured_fields_read; reflexivity.
Defined.

(** ** The scheme *)

Lemma letter_fold (p : ascii) :
  In p (list_ascii_of_string "Bearer") ->
  forall c, Str.char_eq_i p c = Ascii.eqb (Str.lower_char c) (Str.lower_char p).
Proof.
  simpl. intros [<- | [<- | [<- | [<- | [<- | [<- | []]]]]]] c;
    destruct c as [[] [] [] [] [] [] [] []]; reflexivity.
Qed.

Lemma test_whole_i_lower (pat s : string) :
  (forall p, In p (list_ascii_of_string pat) ->
     forall c, Str.char_eq_i p c
               = Ascii.eqb (Str.lower_char c) (Str.lower_char p)) ->
  Str.test_whole_i pat s
  = String.eqb (Str.toLowerCase s) (Str.toLowerCase pat).
Proof.
  revert s. induction pat as [|p pat IH]; intros s Hp.
  - destruct s; reflexivity.
  - destruct s as [|c s]; [reflexivity|]. simpl.
    rewrite (Hp p) by (left; reflexivity).
    rewrite IH by (intros p' Hin; apply Hp; right; exact Hin).
    reflexivity.
Qed.

(** The scheme of the header is accepted exactly when its lower-cased form
    is [bearer]: any mix of letter case, and nothing before or after. *)
Theorem bearer_scheme_iff (scheme : string) :
  Str.test_whole_i "Bearer" scheme = true <->
  Str.toLowerCase scheme = "bearer".
Proof.
  rewrite (test_whole_i_lower "Bearer" scheme letter_fold).
  apply String.eqb_eq.
Qed.

Lemma bearer_scheme_iff_witness : Str.test_whole_i "Bearer" "bEaReR" = true.
Proof. apply (proj2 (bearer_scheme_iff "bEaReR")). reflexivity. Defined.
